(** * The Netlify site resource: netlify/resource_site.go

    A shallow embedding of the four lifecycle functions of the
    [netlify_site] Terraform resource
    ([resourceSiteCreate], [resourceSiteRead], [resourceSiteUpdate],
    [resourceSiteDelete]) and of the payload builder
    [resourceSite_setupStruct], followed by the properties of the
    reconciler that the specification states.

    The Go functions mutate a [*schema.ResourceData] in place and talk to
    the remote API through [meta.Netlify.Operations]; here both live in
    the state of a small state monad, together with a log of the remote
    calls that were issued. *)

From Stdlib Require Import String ZArith List.
Import ListNotations.
Local Open Scope string_scope.
Local Open Scope list_scope.
Local Open Scope Z_scope.

(** ** github.com/netlify/open-api/v2/go/models

    Only the fields that resource_site.go reads or writes.  A Go pointer
    field that may be nil is an [option]. *)
Module models.

Record RepoInfo : Type := {
  Cmd : string;
  DeployKeyID : string;
  Dir : string;
  Provider : string;
  RepoPath : string;
  RepoBranch : string;
  InstallationID : Z  (* int64 *)
}.

Record Site : Type := {
  ID : string;
  Name : string;
  CustomDomain : string;
  DeployURL : string;
  AccountSlug : string;
  AccountName : string;
  BuildSettings : option RepoInfo
}.

(** [SiteSetup] embeds a [Site] and adds the [Repo] pointer. *)
Record SiteSetup : Type := {
  Site_ : Site;
  Repo : option RepoInfo
}.

End models.

(** ** github.com/netlify/open-api/v2/go/plumbing/operations *)
Module operations.

(** The dynamic type of a Go [error] returned by the client: the
    generated default response of each operation, which carries the
    HTTP status code, or anything else (transport failure, ...). *)
Inductive error : Type :=
| GetSiteDefault (_statusCode : Z)
| CreateSiteDefault (_statusCode : Z)
| CreateSiteInTeamDefault (_statusCode : Z)
| UpdateSiteDefault (_statusCode : Z)
| DeleteSiteDefault (_statusCode : Z)
| OtherError (msg : string).

(** A request: the params struct of an operation, with the fields that
    resource_site.go fills in. *)
Inductive Call : Type :=
| CreateSiteInTeamParams (AccountSlug : string) (Site : models.SiteSetup)
| CreateSiteParams (Site : models.SiteSetup)
| GetSiteParams (SiteID : string)
| UpdateSiteParams (SiteID : string) (Site : models.SiteSetup)
| DeleteSiteParams (SiteID : string).

(** The client.  Every operation takes its params and the
    authentication context, and answers with a payload or an error;
    [W] is whatever the remote side remembers between calls. *)
Record Client (W A : Type) : Type := {
  CreateSiteInTeam :
    string -> models.SiteSetup -> A -> W -> (error + models.Site) * W;
  CreateSite :
    models.SiteSetup -> A -> W -> (error + models.Site) * W;
  GetSite :
    string -> A -> W -> (error + models.Site) * W;
  UpdateSite :
    string -> models.SiteSetup -> A -> W -> (error + models.Site) * W;
  DeleteSite :
    string -> A -> W -> option error * W
}.

Arguments CreateSiteInTeam {W A}.
Arguments CreateSite {W A}.
Arguments GetSite {W A}.
Arguments UpdateSite {W A}.
Arguments DeleteSite {W A}.

End operations.

(** ** The resource schema (resourceSite, lines 19-90)

    [schema.ResourceData] hands out values typed by the schema, with the
    zero value for whatever is unset, so the attribute set is a record:
    five [TypeString] attributes and the [TypeList] attribute [repo]
    whose elements have six [TypeString] fields and one [TypeInt]. *)
Module schema.

Record RepoBlock : Type := {
  command : string;
  deploy_key_id : string;
  dir : string;
  provider : string;
  repo_path : string;
  repo_branch : string;
  installation_id : Z
}.

Record ResourceData : Type := {
  id : string;
  name : string;
  custom_domain : string;
  deploy_url : string;
  account_slug : string;
  account_name : string;
  repo : list RepoBlock
}.

(** [d.GetOk(key)]: the value, and whether it differs from the zero
    value of its type. *)
Definition GetOk_string (v : string) : string * bool :=
  (v, negb (v =? "")%string).

Definition GetOk_list {T : Type} (v : list T) : list T * bool :=
  (v, match v with [] => false | _ :: _ => true end).

Definition SetId (v : string) (d : ResourceData) : ResourceData :=
  {| id := v; name := name d; custom_domain := custom_domain d;
     deploy_url := deploy_url d; account_slug := account_slug d;
     account_name := account_name d; repo := repo d |}.

Definition Set_name (v : string) (d : ResourceData) : ResourceData :=
  {| id := id d; name := v; custom_domain := custom_domain d;
     deploy_url := deploy_url d; account_slug := account_slug d;
     account_name := account_name d; repo := repo d |}.

Definition Set_custom_domain (v : string) (d : ResourceData) : ResourceData :=
  {| id := id d; name := name d; custom_domain := v;
     deploy_url := deploy_url d; account_slug := account_slug d;
     account_name := account_name d; repo := repo d |}.

Definition Set_deploy_url (v : string) (d : ResourceData) : ResourceData :=
  {| id := id d; name := name d; custom_domain := custom_domain d;
     deploy_url := v; account_slug := account_slug d;
     account_name := account_name d; repo := repo d |}.

Definition Set_account_slug (v : string) (d : ResourceData) : ResourceData :=
  {| id := id d; name := name d; custom_domain := custom_domain d;
     deploy_url := deploy_url d; account_slug := v;
     account_name := account_name d; repo := repo d |}.

Definition Set_account_name (v : string) (d : ResourceData) : ResourceData :=
  {| id := id d; name := name d; custom_domain := custom_domain d;
     deploy_url := deploy_url d; account_slug := account_slug d;
     account_name := v; repo := repo d |}.

(** [d.Set("repo", nil)] stores the empty list. *)
Definition Set_repo (v : list RepoBlock) (d : ResourceData) : ResourceData :=
  {| id := id d; name := name d; custom_domain := custom_domain d;
     deploy_url := deploy_url d; account_slug := account_slug d;
     account_name := account_name d; repo := v |}.

End schema.

Import models operations schema.

(** ** resourceSite_setupStruct (lines 195-220) *)

Definition resourceSite_setupStruct (d : ResourceData) : SiteSetup :=
  let result_Site :=
    {| ID := ""; Name := name d; CustomDomain := custom_domain d;
       DeployURL := ""; AccountSlug := ""; AccountName := "";
       BuildSettings := None |} in
  let '(v, ok) := GetOk_list (repo d) in
  if ok then
    match v with
    | repo :: _ =>
        {| Site_ := result_Site;
           Repo := Some {| Cmd := command repo;
                           DeployKeyID := deploy_key_id repo;
                           Dir := dir repo;
                           Provider := provider repo;
                           RepoPath := repo_path repo;
                           RepoBranch := repo_branch repo;
                           (* int64 of an int keeps the value *)
                           InstallationID := installation_id repo |} |}
    | [] =>
        (* vL[0] of an empty list; never taken, [ok] says [v] is not empty *)
        {| Site_ := result_Site; Repo := None |}
    end
  else {| Site_ := result_Site; Repo := None |}.

(** ** The state the lifecycle functions run in *)

(** A finished remote call: the params it was made with and the error
    it returned, if any. *)
Record Exchange : Type := {
  request : Call;
  failure : option error
}.

Definition failure_of {T : Type} (r : error + T) : option error :=
  match r with inl err => Some err | inr _ => None end.

(** [*Meta]: the API client and the authentication context. *)
Record Meta (W A : Type) : Type := {
  Netlify : Client W A;
  AuthInfo : A
}.
Arguments Netlify {W A}.
Arguments AuthInfo {W A}.

(** The resource data [d] behind the pointer, the remote side, and the
    calls made so far, oldest first. *)
Record State (W : Type) : Type := {
  d : ResourceData;
  world : W;
  log : list Exchange
}.
Arguments d {W}.
Arguments world {W}.
Arguments log {W}.

Definition M (W T : Type) : Type := State W -> T * State W.

Definition ret {W T : Type} (x : T) : M W T := fun st => (x, st).

Definition bind {W T U : Type} (m : M W T) (k : T -> M W U) : M W U :=
  fun st => let '(x, st') := m st in k x st'.

Declare Scope go_scope.
Delimit Scope go_scope with go.
Notation "x <- m ;; k" := (bind m (fun x => k))
  (at level 61, m at next level, right associativity) : go_scope.
Notation "m ;; k" := (bind m (fun _ => k))
  (at level 61, right associativity) : go_scope.
Local Open Scope go_scope.

(** Reading and writing [d]. *)
Definition Get {W T : Type} (f : ResourceData -> T) : M W T :=
  fun st => (f (d st), st).

Definition Id {W : Type} : M W string := Get id.

Definition modify_d {W : Type} (f : ResourceData -> ResourceData) : M W unit :=
  fun st => (tt, {| d := f (d st); world := world st; log := log st |}).

(** One round trip to the remote API: the answer comes from the client,
    the remote side moves on, and the exchange is appended to the log. *)
Definition roundtrip {W T : Type} (c : Call)
    (op : W -> (error + T) * W) : M W (error + T) :=
  fun st =>
    let '(r, w) := op (world st) in
    (r, {| d := d st; world := w;
           log := log st ++ [{| request := c; failure := failure_of r |}] |}).

Definition option_to_sum (o : option error) : error + unit :=
  match o with Some err => inl err | None => inr tt end.

Section Reconciler.

Variables W A : Type.
Variable meta : Meta W A.

Definition callCreateSiteInTeam (slug : string) (site : SiteSetup)
  : M W (error + Site) :=
  roundtrip (CreateSiteInTeamParams slug site)
    (CreateSiteInTeam (Netlify meta) slug site (AuthInfo meta)).

Definition callCreateSite (site : SiteSetup) : M W (error + Site) :=
  roundtrip (CreateSiteParams site)
    (CreateSite (Netlify meta) site (AuthInfo meta)).

Definition callGetSite (siteID : string) : M W (error + Site) :=
  roundtrip (GetSiteParams siteID)
    (GetSite (Netlify meta) siteID (AuthInfo meta)).

Definition callUpdateSite (siteID : string) (site : SiteSetup)
  : M W (error + Site) :=
  roundtrip (UpdateSiteParams siteID site)
    (UpdateSite (Netlify meta) siteID site (AuthInfo meta)).

Definition callDeleteSite (siteID : string) : M W (error + unit) :=
  roundtrip (DeleteSiteParams siteID)
    (fun w => let '(e, w') := DeleteSite (Netlify meta) siteID (AuthInfo meta) w
              in (option_to_sum e, w')).

(** *** resourceSiteRead (lines 132-170) *)

(** The one-element list that line 156 stores under "repo". *)
Definition repo_of_BuildSettings (bs : RepoInfo) : list RepoBlock :=
  [ {| command := Cmd bs;
       deploy_key_id := DeployKeyID bs;
       dir := Dir bs;
       provider := Provider bs;
       repo_path := RepoPath bs;
       repo_branch := RepoBranch bs;
       installation_id := InstallationID bs |} ].

Definition resourceSiteRead : M W (option error) :=
  siteID <- Id ;;
  resp <- callGetSite siteID ;;
  match resp with
  | inl err =>
      (* If it is a 404 it was removed remotely *)
      match err with
      | GetSiteDefault code =>
          if code =? 404 then
            modify_d (SetId "") ;;
            ret None
          else ret (Some err)
      | _ => ret (Some err)
      end
  | inr site =>
      modify_d (Set_name (Name site)) ;;
      modify_d (Set_custom_domain (CustomDomain site)) ;;
      modify_d (Set_deploy_url (DeployURL site)) ;;
      modify_d (Set_account_slug (AccountSlug site)) ;;
      modify_d (Set_account_name (AccountName site)) ;;
      modify_d (Set_repo []) ;;
      match BuildSettings site with
      | Some bs =>
          if negb (RepoPath bs =? "")%string then
            modify_d (Set_repo (repo_of_BuildSettings bs))
          else ret tt
      | None => ret tt
      end ;;
      ret None
  end.

(** *** resourceSiteCreate (lines 94-130) *)

Definition resourceSiteCreate : M W (option error) :=
  vok <- Get (fun d => GetOk_string (account_slug d)) ;;
  let '(v, ok) := vok in
  created <-
    (if ok then
       site <- Get resourceSite_setupStruct ;;
       callCreateSiteInTeam v site
     else
       site <- Get resourceSite_setupStruct ;;
       callCreateSite site) ;;
  match created with
  | inl err => ret (Some err)
  | inr site =>
      modify_d (SetId (ID site)) ;;
      resourceSiteRead
  end.

(** *** resourceSiteUpdate (lines 172-184) *)

Definition resourceSiteUpdate : M W (option error) :=
  site <- Get resourceSite_setupStruct ;;
  siteID <- Id ;;
  updated <- callUpdateSite siteID site ;;
  match updated with
  | inl err => ret (Some err)
  | inr _ => resourceSiteRead
  end.

(** *** resourceSiteDelete (lines 186-192) *)

Definition resourceSiteDelete : M W (option error) :=
  siteID <- Id ;;
  deleted <- callDeleteSite siteID ;;
  ret (failure_of deleted).

(** *** resourceSite (lines 9-18): the four verbs of the resource *)

Inductive Verb : Type := Create | Read | Update | Delete.

Definition resourceSite (v : Verb) : M W (option error) :=
  match v with
  | Create => resourceSiteCreate
  | Read => resourceSiteRead
  | Update => resourceSiteUpdate
  | Delete => resourceSiteDelete
  end.

End Reconciler.

Arguments callGetSite {W A}.
Arguments resourceSiteRead {W A}.
Arguments resourceSiteCreate {W A}.
Arguments resourceSiteUpdate {W A}.
Arguments resourceSiteDelete {W A}.
Arguments resourceSite {W A}.

(** ** A client that plays back canned answers

    The remote side is a queue of answers; every operation takes the
    next one, whatever the request.  Used to run the reconciler on
    concrete inputs. *)
Module Scripted.

Definition World : Type := list (error + Site).

Definition answer (w : World) : (error + Site) * World :=
  match w with
  | r :: w' => (r, w')
  | [] => (inl (OtherError "EOF"), [])
  end.

Definition client : Client World unit :=
  {| CreateSiteInTeam := fun _ _ _ => answer;
     CreateSite := fun _ _ => answer;
     GetSite := fun _ _ => answer;
     UpdateSite := fun _ _ _ => answer;
     DeleteSite := fun _ _ w => let '(r, w') := answer w in (failure_of r, w') |}.

Definition meta : Meta World unit := {| Netlify := client; AuthInfo := tt |}.

Definition start (d0 : ResourceData) (w : World) : State World :=
  {| d := d0; world := w; log := [] |}.

End Scripted.

(** ** Concrete attribute sets and sites *)

Definition gitlab_block (n : Z) : RepoBlock :=
  {| command := "npm run build"; deploy_key_id := ""; dir := "web";
     provider := "gitlab"; repo_path := "grp/proj"; repo_branch := "dev";
     installation_id := n |}.

(** A fresh declaration with a repo block. *)
Definition d_site1 : ResourceData :=
  {| id := ""; name := "site1"; custom_domain := ""; deploy_url := "";
     account_slug := ""; account_name := ""; repo := [gitlab_block 0] |}.

(** The same resource once a read has stored the server's installation id. *)
Definition d_site1_tracked : ResourceData :=
  {| id := "site-1"; name := "site1"; custom_domain := "";
     deploy_url := "https://site1.netlify.app"; account_slug := "me";
     account_name := "Me"; repo := [gitlab_block 42] |}.

(** A declaration for a team, without repo. *)
Definition d_team : ResourceData :=
  {| id := ""; name := ""; custom_domain := ""; deploy_url := "";
     account_slug := "team-x"; account_name := ""; repo := [] |}.

Definition gitlab_settings : RepoInfo :=
  {| Cmd := "npm run build"; DeployKeyID := ""; Dir := "web";
     Provider := "gitlab"; RepoPath := "grp/proj"; RepoBranch := "dev";
     InstallationID := 42 |}.

Definition remote_site1 : Site :=
  {| ID := "site-1"; Name := "site1"; CustomDomain := "";
     DeployURL := "https://site1.netlify.app"; AccountSlug := "me";
     AccountName := "Me"; BuildSettings := Some gitlab_settings |}.

(** A remote site whose build settings exist but name no repository. *)
Definition remote_unlinked : Site :=
  {| ID := "site-2"; Name := "plain"; CustomDomain := "";
     DeployURL := "https://plain.netlify.app"; AccountSlug := "team-x";
     AccountName := "Team X";
     BuildSettings := Some {| Cmd := "make"; DeployKeyID := ""; Dir := "";
                              Provider := ""; RepoPath := ""; RepoBranch := "";
                              InstallationID := 0 |} |}.

(** ** What a run adds to the log *)

Definition exchanges_since {W : Type} (st st' : State W) : list Exchange :=
  skipn (length (log st)) (log st').

Definition calls_since {W : Type} (st st' : State W) : list Call :=
  map request (exchanges_since st st').

Definition is_creation (c : Call) : bool :=
  match c with
  | CreateSiteInTeamParams _ _ | CreateSiteParams _ => true
  | _ => false
  end.

Definition is_update (c : Call) : bool :=
  match c with
  | UpdateSiteParams _ _ => true
  | _ => false
  end.

(** The creation call that the declared attributes select. *)
Definition creation_call (d0 : ResourceData) : Call :=
  if (account_slug d0 =? "")%string
  then CreateSiteParams (resourceSite_setupStruct d0)
  else CreateSiteInTeamParams (account_slug d0) (resourceSite_setupStruct d0).

(** The client's answer to a creation call. *)
Definition creation_answer {W A : Type} (meta : Meta W A) (d0 : ResourceData) (w : W)
  : (error + Site) * W :=
  match creation_call d0 with
  | CreateSiteInTeamParams slug site =>
      CreateSiteInTeam (Netlify meta) slug site (AuthInfo meta) w
  | CreateSiteParams site => CreateSite (Netlify meta) site (AuthInfo meta) w
  | _ => (inl (OtherError "not a creation call"), w)
  end.

(** The get-site failure that read treats as "removed remotely". *)
Definition get_site_not_found (x : Exchange) : bool :=
  match request x, failure x with
  | GetSiteParams _, Some (GetSiteDefault code) => code =? 404
  | _, _ => false
  end.

(** ** Definitions used to state the properties *)

(** The state after a finished round trip. *)
Definition answered {W : Type} (st : State W) (c : Call)
    (f : option error) (w : W) : State W :=
  {| d := d st; world := w;
     log := log st ++ [{| request := c; failure := f |}] |}.

Definition with_d {W : Type} (d0 : ResourceData) (st : State W) : State W :=
  {| d := d0; world := world st; log := log st |}.

(** What lines 148-167 leave in [d] for a fetched site. *)
Definition refreshed (site : Site) (d0 : ResourceData) : ResourceData :=
  {| id := id d0;
     name := Name site;
     custom_domain := CustomDomain site;
     deploy_url := DeployURL site;
     account_slug := AccountSlug site;
     account_name := AccountName site;
     repo := match BuildSettings site with
             | Some bs =>
                 if (RepoPath bs =? "")%string then []
                 else repo_of_BuildSettings bs
             | None => []
             end |}.

(** What read returns and leaves behind, by the answer to get-site. *)
Definition read_outcome {W : Type} (st : State W) (r : error + Site) (w : W)
  : option error * State W :=
  let st1 := answered st (GetSiteParams (id (d st))) (failure_of r) w in
  match r with
  | inl (GetSiteDefault code) =>
      if code =? 404 then (None, with_d (SetId "" (d st)) st1)
      else (Some (GetSiteDefault code), st1)
  | inl err => (Some err, st1)
  | inr site => (None, with_d (refreshed site (d st)) st1)
  end.

Definition payload_of (c : Call) : option SiteSetup :=
  match c with
  | CreateSiteInTeamParams _ site | CreateSiteParams site | UpdateSiteParams _ site => Some site
  | GetSiteParams _ | DeleteSiteParams _ => None
  end.

(** The get-site exchange of a read started in [st]. *)
Definition get_site_exchange {W A : Type} (meta : Meta W A) (st : State W)
  : Exchange :=
  {| request := GetSiteParams (id (d st));
     failure := failure_of
       (fst (GetSite (Netlify meta) (id (d st)) (AuthInfo meta) (world st))) |}.

(** A result and the exchanges of a run fit when every failed exchange
    other than a get-site 404 is the last one, follows successes only,
    and has its error as the result. *)
Definition propagated (result : option error) (xs : list Exchange) : Prop :=
  forall (x : Exchange) (err : error),
    In x xs -> failure x = Some err -> get_site_not_found x = false ->
    result = Some err /\
    exists before : list Exchange,
      xs = before ++ [x] /\ Forall (fun y => failure y = None) before.

(** ** Whom a call addresses *)

Definition site_id_of (c : Call) : option string :=
  match c with
  | GetSiteParams i | UpdateSiteParams i _ | DeleteSiteParams i => Some i
  | CreateSiteInTeamParams _ _ | CreateSiteParams _ => None
  end.

Definition is_get_site (c : Call) : bool :=
  match c with
  | GetSiteParams _ => true
  | _ => false
  end.

(** ** The repo block as Go sees it: map[string]interface{}

    Lines 206-216 take the block as a [map[string]interface{}] and
    narrow every entry with a type assertion; lines 157-165 build such a
    map from the remote build settings.  The sub-schema of lines 52-87
    says what the entries are. *)

Inductive ValueType : Type := TypeString | TypeInt | TypeList.

Record FieldSchema : Type := {
  Type_ : ValueType;
  Optional : bool;
  Required : bool;
  Computed : bool
}.

(** The [Elem] of "repo" (lines 51-88). *)
Definition repo_Elem_Schema : list (string * FieldSchema) :=
  [ ("command",
     {| Type_ := TypeString; Optional := true; Required := false; Computed := false |});
    ("deploy_key_id",
     {| Type_ := TypeString; Optional := true; Required := false; Computed := false |});
    ("dir",
     {| Type_ := TypeString; Optional := true; Required := false; Computed := false |});
    ("provider",
     {| Type_ := TypeString; Optional := false; Required := true; Computed := false |});
    ("repo_path",
     {| Type_ := TypeString; Optional := false; Required := true; Computed := false |});
    ("repo_branch",
     {| Type_ := TypeString; Optional := false; Required := true; Computed := false |});
    ("installation_id",
     {| Type_ := TypeInt; Optional := false; Required := false; Computed := true |}) ].

(** An [interface{}] holding one of the dynamic types that occur in a
    repo block. *)
Inductive value : Type :=
| VString (s : string)
| VInt (n : Z)
| VInt64 (n : Z).

Definition gomap : Type := list (string * value).

(** [m[k]]: the entry, or the nil interface ([None]) for a missing key. *)
Fixpoint map_index (m : gomap) (k : string) : option value :=
  match m with
  | [] => None
  | (k', v) :: m' => if (k' =? k)%string then Some v else map_index m' k
  end.

(** [x.(string)] and [x.(int)]: [None] stands for the run-time panic of
    a failed assertion. *)
Definition assert_string (x : option value) : option string :=
  match x with
  | Some (VString s) => Some s
  | _ => None
  end.

Definition assert_int (x : option value) : option Z :=
  match x with
  | Some (VInt n) => Some n
  | _ => None
  end.

(** The composite literal of lines 208-216, on the map of line 206. *)
Definition RepoInfo_of_map (repo : gomap) : option RepoInfo :=
  match assert_string (map_index repo "command") with
  | None => None
  | Some cmd =>
  match assert_string (map_index repo "deploy_key_id") with
  | None => None
  | Some deployKeyID =>
  match assert_string (map_index repo "dir") with
  | None => None
  | Some dir_ =>
  match assert_string (map_index repo "provider") with
  | None => None
  | Some provider_ =>
  match assert_string (map_index repo "repo_path") with
  | None => None
  | Some repoPath =>
  match assert_string (map_index repo "repo_branch") with
  | None => None
  | Some repoBranch =>
  match assert_int (map_index repo "installation_id") with
  | None => None
  | Some installationID =>
      Some {| Cmd := cmd;
              DeployKeyID := deployKeyID;
              Dir := dir_;
              Provider := provider_;
              RepoPath := repoPath;
              RepoBranch := repoBranch;
              InstallationID := installationID |}
  end end end end end end end.

(** The map literal of lines 157-165; [InstallationID] is an int64. *)
Definition BuildSettings_map (bs : RepoInfo) : gomap :=
  [ ("command", VString (Cmd bs));
    ("deploy_key_id", VString (DeployKeyID bs));
    ("dir", VString (Dir bs));
    ("provider", VString (Provider bs));
    ("repo_path", VString (RepoPath bs));
    ("repo_branch", VString (RepoBranch bs));
    ("installation_id", VInt64 (InstallationID bs)) ].

(** A value of exactly the Go type that a schema type is read as. *)
Definition has_type (t : ValueType) (v : value) : bool :=
  match t, v with
  | TypeString, VString _ => true
  | TypeInt, VInt _ => true
  | _, _ => false
  end.

(** A value that a schema type can be written from: any integer width
    for [TypeInt]. *)
Definition fits_type (t : ValueType) (v : value) : bool :=
  match t, v with
  | TypeString, VString _ => true
  | TypeInt, VInt _ | TypeInt, VInt64 _ => true
  | _, _ => false
  end.

(** Every field of the schema has an entry that [ok] accepts. *)
Definition shaped (ok : ValueType -> value -> bool)
    (sch : list (string * FieldSchema)) (m : gomap) : bool :=
  forallb (fun ks : string * FieldSchema =>
             match map_index m (fst ks) with
             | Some v => ok (Type_ (snd ks)) v
             | None => false
             end) sch.

(** The block as [d.Get] hands it out: every field of the schema under
    its key, with the Go type of its schema type. *)
Definition map_of_block (b : RepoBlock) : gomap :=
  [ ("command", VString (command b));
    ("deploy_key_id", VString (deploy_key_id b));
    ("dir", VString (dir b));
    ("provider", VString (provider b));
    ("repo_path", VString (repo_path b));
    ("repo_branch", VString (repo_branch b));
    ("installation_id", VInt (installation_id b)) ].

(** A remote site that holds the repo object of [d_site1]'s payload. *)
Definition remote_echo : Site :=
  {| ID := "site-1"; Name := "site1"; CustomDomain := "";
     DeployURL := ""; AccountSlug := ""; AccountName := "";
     BuildSettings := Repo (resourceSite_setupStruct d_site1) |}.

(** * Properties *)

(** Some runs, as checks of the embedding. *)

Example run_create_site1 :
  let '(result, st) :=
    resourceSiteCreate Scripted.meta
      (Scripted.start d_site1 [inr remote_site1; inr remote_site1]) in
  result = None /\ d st = d_site1_tracked /\
  map request (log st) =
    [CreateSiteParams (resourceSite_setupStruct d_site1); GetSiteParams "site-1"].
Proof. repeat split. Qed.

Example run_create_team :
  let '(result, st) :=
    resourceSiteCreate Scripted.meta
      (Scripted.start d_team [inr remote_unlinked; inr remote_unlinked]) in
  result = None /\ repo (d st) = [] /\ account_slug (d st) = "team-x" /\
  map request (log st) =
    [CreateSiteInTeamParams "team-x" (resourceSite_setupStruct d_team); GetSiteParams "site-2"].
Proof. repeat split. Qed.

Example run_delete :
  resourceSiteDelete Scripted.meta
    (Scripted.start d_site1_tracked [inl (DeleteSiteDefault 500)])
  = (Some (DeleteSiteDefault 500),
     {| d := d_site1_tracked; world := [];
        log := [{| request := DeleteSiteParams "site-1";
                   failure := Some (DeleteSiteDefault 500) |}] |}).
Proof. reflexivity. Qed.

(** ** Running the functions symbolically *)

Lemma skipn_length_app {T : Type} (l new : list T) :
  skipn (length l) (l ++ new) = new.
Proof.
  induction l as [|x l IH]; simpl; [reflexivity | exact IH].
Qed.

Section Runs.

Variables W A : Type.
Variable meta : Meta W A.

Lemma resourceSiteRead_run (st : State W) (r : error + Site) (w : W) :
  GetSite (Netlify meta) (id (d st)) (AuthInfo meta) (world st) = (r, w) ->
  resourceSiteRead meta st = read_outcome st r w.
Proof.
  intros E.
  unfold resourceSiteRead, read_outcome, bind, Id, Get, callGetSite, roundtrip.
  rewrite E.
  destruct r as [err | site]; simpl.
  - destruct err as [code | | | | |]; try reflexivity.
    destruct (code =? 404); reflexivity.
  - unfold refreshed, with_d, answered.
    destruct (BuildSettings site) as [bs|]; simpl; [|reflexivity].
    destruct (RepoPath bs =? "")%string; reflexivity.
Qed.

Lemma creation_run (st : State W) :
  forall r w, creation_answer meta (d st) (world st) = (r, w) ->
  resourceSiteCreate meta st =
    let st1 := answered st (creation_call (d st)) (failure_of r) w in
    match r with
    | inl err => (Some err, st1)
    | inr site => resourceSiteRead meta (with_d (SetId (ID site) (d st)) st1)
    end.
Proof.
  intros r w.
  unfold creation_answer, creation_call, resourceSiteCreate, bind, Get,
    GetOk_string, callCreateSiteInTeam, callCreateSite, roundtrip, modify_d.
  destruct (account_slug (d st) =? "")%string; simpl;
    intros E; rewrite E; destruct r; reflexivity.
Qed.

Lemma update_run (st : State W) :
  forall r w,
    UpdateSite (Netlify meta) (id (d st)) (resourceSite_setupStruct (d st))
      (AuthInfo meta) (world st) = (r, w) ->
    resourceSiteUpdate meta st =
      let st1 := answered st
                   (UpdateSiteParams (id (d st)) (resourceSite_setupStruct (d st)))
                   (failure_of r) w in
      match r with
      | inl err => (Some err, st1)
      | inr _ => resourceSiteRead meta st1
      end.
Proof.
  intros r w E.
  unfold resourceSiteUpdate, bind, Id, Get, callUpdateSite, roundtrip.
  cbv beta iota. rewrite E. destruct r; reflexivity.
Qed.

Lemma delete_run (st : State W) :
  forall e w,
    DeleteSite (Netlify meta) (id (d st)) (AuthInfo meta) (world st) = (e, w) ->
    resourceSiteDelete meta st = (e, answered st (DeleteSiteParams (id (d st))) e w).
Proof.
  intros e w E.
  unfold resourceSiteDelete, bind, Id, Get, callDeleteSite, roundtrip, ret.
  cbv beta iota. rewrite E. destruct e; reflexivity.
Qed.

(** The log only grows: what read adds is its single get-site exchange. *)
Lemma read_exchanges (st : State W) (r : error + Site) (w : W) :
  log (snd (read_outcome st r w)) =
    log st ++ [{| request := GetSiteParams (id (d st)); failure := failure_of r |}].
Proof.
  unfold read_outcome.
  destruct r as [err | site]; simpl; [|reflexivity].
  destruct err as [code | | | | |]; try reflexivity.
  destruct (code =? 404); reflexivity.
Qed.

End Runs.

(** ** The outbound payload *)

(** C1, as stated, fails: the payload built for a tracked resource with a
    repo block carries the block's installation_id (42 here), next to
    the six writable sub-fields. *)
Lemma setupStruct_sends_installation_id :
  snd (GetOk_list (repo d_site1_tracked)) = true /\
  exists r : RepoInfo,
    Repo (resourceSite_setupStruct d_site1_tracked) = Some r /\
    InstallationID r = 42 /\ InstallationID r <> 0.
Proof.
  split; [reflexivity|].
  exists gitlab_settings.
  repeat split. discriminate.
Qed.

(** C1 (amended): when the repo attribute is present, the payload built by
    [resourceSite_setupStruct] has a repo object whose fields are the
    seven sub-fields of the first repo block: the six writable ones and
    installation_id, copied as they are in the attribute set. *)
Theorem setupStruct_repo_present (d0 : ResourceData) :
  snd (GetOk_list (repo d0)) = true ->
  exists b : RepoBlock,
    hd_error (repo d0) = Some b /\
    Repo (resourceSite_setupStruct d0) =
      Some {| Cmd := command b;
              DeployKeyID := deploy_key_id b;
              Dir := dir b;
              Provider := provider b;
              RepoPath := repo_path b;
              RepoBranch := repo_branch b;
              InstallationID := installation_id b |}.
Proof.
  unfold resourceSite_setupStruct, GetOk_list.
  destruct (repo d0) as [|b rest]; simpl; intros H.
  - discriminate H.
  - exists b. split; reflexivity.
Qed.

Lemma setupStruct_repo_present_witness :
  snd (GetOk_list (repo d_site1)) = true /\
  exists b : RepoBlock,
    hd_error (repo d_site1) = Some b /\
    Repo (resourceSite_setupStruct d_site1) =
      Some {| Cmd := command b;
              DeployKeyID := deploy_key_id b;
              Dir := dir b;
              Provider := provider b;
              RepoPath := repo_path b;
              RepoBranch := repo_branch b;
              InstallationID := installation_id b |}.
Proof.
  split; [reflexivity|].
  apply (setupStruct_repo_present d_site1). reflexivity.
Defined.

(** C5: when the repo attribute is absent, the payload built by
    [resourceSite_setupStruct] has no repo object at all: its [Repo]
    field is nil, and the rest is the name and the custom domain. *)
Theorem setupStruct_repo_absent (d0 : ResourceData) :
  snd (GetOk_list (repo d0)) = false ->
  Repo (resourceSite_setupStruct d0) = None /\
  Name (Site_ (resourceSite_setupStruct d0)) = name d0 /\
  CustomDomain (Site_ (resourceSite_setupStruct d0)) = custom_domain d0.
Proof.
  unfold resourceSite_setupStruct, GetOk_list.
  destruct (repo d0) as [|b rest]; simpl; intros H.
  - repeat split.
  - discriminate H.
Qed.

Lemma setupStruct_repo_absent_witness :
  snd (GetOk_list (repo d_team)) = false /\
  Repo (resourceSite_setupStruct d_team) = None.
Proof.
  split; [reflexivity|].
  apply (setupStruct_repo_absent d_team). reflexivity.
Defined.

(** ** read *)

(** C3: when get-site fails with a 404 [GetSiteDefault], read returns no
    error and leaves the identifier empty. *)
Theorem read_not_found {W A : Type} (meta : Meta W A) (st : State W) (w : W) :
  GetSite (Netlify meta) (id (d st)) (AuthInfo meta) (world st)
    = (inl (GetSiteDefault 404), w) ->
  fst (resourceSiteRead meta st) = None /\
  id (d (snd (resourceSiteRead meta st))) = "".
Proof.
  intros E. rewrite (resourceSiteRead_run W A meta st _ _ E).
  split; reflexivity.
Qed.

Lemma read_not_found_witness :
  let st := Scripted.start d_site1_tracked [inl (GetSiteDefault 404)] in
  id (d st) = "site-1" /\
  fst (resourceSiteRead Scripted.meta st) = None /\
  id (d (snd (resourceSiteRead Scripted.meta st))) = "".
Proof.
  split; [reflexivity|].
  apply (read_not_found Scripted.meta
           (Scripted.start d_site1_tracked [inl (GetSiteDefault 404)]) []).
  reflexivity.
Defined.

(** C4: after a successful get-site, the repo attribute holds the remote
    build settings exactly when the build-settings object is present and
    its repo_path is not empty: it is then the one block whose command,
    deploy_key_id, dir, provider, repo_path, repo_branch and
    installation_id are the Cmd, DeployKeyID, Dir, Provider, RepoPath,
    RepoBranch and InstallationID of the build settings.  In every other
    case it is the empty list, whatever it held before. *)
Theorem read_sets_repo {W A : Type} (meta : Meta W A) (st : State W)
    (site : Site) (w : W) :
  GetSite (Netlify meta) (id (d st)) (AuthInfo meta) (world st)
    = (inr site, w) ->
  let d' := d (snd (resourceSiteRead meta st)) in
  (forall bs, BuildSettings site = Some bs -> RepoPath bs <> "" ->
     repo d' = [ {| command := Cmd bs;
                    deploy_key_id := DeployKeyID bs;
                    dir := Dir bs;
                    provider := Provider bs;
                    repo_path := RepoPath bs;
                    repo_branch := RepoBranch bs;
                    installation_id := InstallationID bs |} ]) /\
  (BuildSettings site = None -> repo d' = []) /\
  (forall bs, BuildSettings site = Some bs -> RepoPath bs = "" ->
     repo d' = []) /\
  (repo d' <> [] <->
     exists bs, BuildSettings site = Some bs /\ RepoPath bs <> "").
Proof.
  intros E d'. subst d'.
  rewrite (resourceSiteRead_run W A meta st _ _ E).
  unfold read_outcome, with_d, refreshed; simpl.
  destruct (BuildSettings site) as [bs|].
  - destruct (String.eqb_spec (RepoPath bs) "") as [Heq | Hne].
    + split; [|split; [|split; [|split]]].
      * intros bs' Hbs Hp. inversion Hbs; subst. contradiction.
      * reflexivity.
      * reflexivity.
      * intros H. contradiction.
      * intros [bs' [Hbs Hp]]. inversion Hbs; subst. contradiction.
    + split; [|split; [|split; [|split]]].
      * intros bs' Hbs _. inversion Hbs; subst. reflexivity.
      * discriminate.
      * intros bs' Hbs Hp. inversion Hbs; subst. contradiction.
      * intros _. exists bs. split; [reflexivity | exact Hne].
      * intros _. discriminate.
  - split; [|split; [|split; [|split]]].
    + discriminate.
    + reflexivity.
    + reflexivity.
    + intros H. contradiction.
    + intros [bs' [Hbs _]]. discriminate Hbs.
Qed.

Lemma read_sets_repo_witness :
  let linked := Scripted.start d_team [inr remote_site1] in
  let unlinked := Scripted.start d_site1_tracked [inr remote_unlinked] in
  (repo (d linked) = [] /\
   repo (d (snd (resourceSiteRead Scripted.meta linked))) =
     [ {| command := "npm run build"; deploy_key_id := ""; dir := "web";
          provider := "gitlab"; repo_path := "grp/proj"; repo_branch := "dev";
          installation_id := 42 |} ]) /\
  (repo (d unlinked) = [gitlab_block 42] /\
   repo (d (snd (resourceSiteRead Scripted.meta unlinked))) = []).
Proof.
  split; (split; [reflexivity|]).
  - refine (proj1
      (read_sets_repo Scripted.meta
         (Scripted.start d_team [inr remote_site1])
         remote_site1 [] _) gitlab_settings _ _).
    + reflexivity.
    + reflexivity.
    + discriminate.
  - refine (proj1 (proj2 (proj2
      (read_sets_repo Scripted.meta
         (Scripted.start d_site1_tracked [inr remote_unlinked])
         remote_unlinked [] _))) _ _ _); reflexivity.
Defined.

(** ** What each function adds to the log *)

Section Logs.

Variables W A : Type.
Variable meta : Meta W A.

Lemma read_log (st : State W) :
  log (snd (resourceSiteRead meta st)) = log st ++ [get_site_exchange meta st].
Proof.
  unfold get_site_exchange.
  destruct (GetSite (Netlify meta) (id (d st)) (AuthInfo meta) (world st))
    as [r w] eqn:E.
  rewrite (resourceSiteRead_run W A meta st r w E).
  apply read_exchanges.
Qed.

Lemma read_exchanges_since (st : State W) :
  exchanges_since st (snd (resourceSiteRead meta st)) = [get_site_exchange meta st].
Proof.
  unfold exchanges_since. rewrite read_log. apply skipn_length_app.
Qed.

(** A read that follows a logged call adds one more exchange. *)
Lemma read_after_exchanges_since (st : State W) (d0 : ResourceData)
    (c : Call) (f : option error) (w : W) :
  let st1 := with_d d0 (answered st c f w) in
  exchanges_since st (snd (resourceSiteRead meta st1)) =
    [{| request := c; failure := f |}; get_site_exchange meta st1].
Proof.
  intros st1. unfold exchanges_since. rewrite read_log.
  subst st1. simpl log. rewrite <- app_assoc. apply skipn_length_app.
Qed.

Lemma answered_exchanges_since (st : State W) (c : Call) (f : option error) (w : W) :
  exchanges_since st (answered st c f w) = [{| request := c; failure := f |}].
Proof.
  unfold exchanges_since, answered. simpl. apply skipn_length_app.
Qed.

Lemma with_d_same (st : State W) : with_d (d st) st = st.
Proof. destruct st; reflexivity. Qed.

End Logs.

(** ** create *)

(** C2: create issues exactly one creation call, as its first remote call:
    create-site-in-team with the declared account_slug and the setup
    payload when account_slug is not empty, create-site with the setup
    payload otherwise; no other call of the run is a creation call. *)
Theorem create_one_creation_call {W A : Type} (meta : Meta W A) (st : State W) :
  let payload := resourceSite_setupStruct (d st) in
  let slug := account_slug (d st) in
  exists rest : list Call,
    calls_since st (snd (resourceSiteCreate meta st)) =
      (if (slug =? "")%string then CreateSiteParams payload
       else CreateSiteInTeamParams slug payload) :: rest /\
    filter is_creation rest = [] /\
    length (filter is_creation
              (calls_since st (snd (resourceSiteCreate meta st)))) = 1%nat.
Proof.
  intros payload slug.
  destruct (creation_answer meta (d st) (world st)) as [r w] eqn:E.
  rewrite (creation_run W A meta st r w E).
  fold (creation_call (d st)).
  assert (Hc : is_creation (creation_call (d st)) = true).
  { unfold creation_call. destruct (account_slug (d st) =? "")%string; reflexivity. }
  unfold calls_since.
  destruct r as [err | site]; cbv zeta.
  - exists []. simpl snd. rewrite answered_exchanges_since. simpl.
    rewrite Hc. repeat split.
  - exists [GetSiteParams (ID site)].
    rewrite read_after_exchanges_since. simpl.
    rewrite Hc. repeat split.
Qed.

(** C9: when the creation call fails, create returns that error, the
    resource data is as it was (no identifier assigned), and the
    creation call is the only call made: no get-site follows. *)
Theorem create_failure_atomic {W A : Type} (meta : Meta W A) (st : State W)
    (err : error) (w : W) :
  creation_answer meta (d st) (world st) = (inl err, w) ->
  fst (resourceSiteCreate meta st) = Some err /\
  d (snd (resourceSiteCreate meta st)) = d st /\
  exchanges_since st (snd (resourceSiteCreate meta st)) =
    [{| request := creation_call (d st); failure := Some err |}].
Proof.
  intros E. rewrite (creation_run W A meta st _ w E). cbv zeta. simpl fst. simpl snd.
  split; [reflexivity|]. split; [reflexivity|].
  apply answered_exchanges_since.
Qed.

Lemma create_failure_atomic_witness :
  let st := Scripted.start d_team [inl (CreateSiteInTeamDefault 422)] in
  let run := resourceSiteCreate Scripted.meta st in
  fst run = Some (CreateSiteInTeamDefault 422) /\
  d (snd run) = d_team /\
  exchanges_since st (snd run) =
    [{| request := CreateSiteInTeamParams "team-x" (resourceSite_setupStruct d_team);
        failure := Some (CreateSiteInTeamDefault 422) |}].
Proof.
  apply (create_failure_atomic Scripted.meta
           (Scripted.start d_team [inl (CreateSiteInTeamDefault 422)])
           (CreateSiteInTeamDefault 422) []).
  reflexivity.
Defined.

(** C10: when the creation call succeeds and the get-site of the read
    that follows answers 404, create returns no error and the identifier
    it has just stored is empty again. *)
Theorem create_then_not_found {W A : Type} (meta : Meta W A) (st : State W)
    (site : Site) (w1 w2 : W) :
  creation_answer meta (d st) (world st) = (inr site, w1) ->
  GetSite (Netlify meta) (ID site) (AuthInfo meta) w1
    = (inl (GetSiteDefault 404), w2) ->
  fst (resourceSiteCreate meta st) = None /\
  id (d (snd (resourceSiteCreate meta st))) = "".
Proof.
  intros E G. rewrite (creation_run W A meta st _ w1 E). cbv zeta.
  simpl failure_of.
  rewrite (resourceSiteRead_run W A meta
             (with_d (SetId (ID site) (d st))
                (answered st (creation_call (d st)) None w1))
             (inl (GetSiteDefault 404)) w2 G).
  split; reflexivity.
Qed.

Lemma create_then_not_found_witness :
  let st := Scripted.start d_site1 [inr remote_site1; inl (GetSiteDefault 404)] in
  fst (resourceSiteCreate Scripted.meta st) = None /\
  id (d (snd (resourceSiteCreate Scripted.meta st))) = "".
Proof.
  apply (create_then_not_found Scripted.meta
           (Scripted.start d_site1 [inr remote_site1; inl (GetSiteDefault 404)])
           remote_site1 [inl (GetSiteDefault 404)] []); reflexivity.
Defined.

(** ** update *)

(** C6: update sends the payload that [resourceSite_setupStruct] builds
    from the resource data, which is also the payload of create's
    creation call; its first call is update-site for the resource's
    identifier, whatever account_slug holds, and the only further call
    it can make is the get-site of the read; when update-site succeeds,
    the rest of update is a read run on what the call left. *)
Theorem update_same_payload_then_read {W A : Type} (meta : Meta W A) (st : State W) :
  let payload := resourceSite_setupStruct (d st) in
  let answer :=
    UpdateSite (Netlify meta) (id (d st)) payload (AuthInfo meta) (world st) in
  let st1 :=
    answered st (UpdateSiteParams (id (d st)) payload) (failure_of (fst answer))
      (snd answer) in
  map payload_of (firstn 1 (calls_since st (snd (resourceSiteCreate meta st))))
    = [Some payload] /\
  map payload_of (firstn 1 (calls_since st (snd (resourceSiteUpdate meta st))))
    = [Some payload] /\
  calls_since st (snd (resourceSiteUpdate meta st)) =
    UpdateSiteParams (id (d st)) payload ::
      match fst answer with
      | inl _ => []
      | inr _ => [GetSiteParams (id (d st))]
      end /\
  length (filter is_update (calls_since st (snd (resourceSiteUpdate meta st))))
    = 1%nat /\
  filter is_creation (calls_since st (snd (resourceSiteUpdate meta st))) = [] /\
  resourceSiteUpdate meta st =
    match fst answer with
    | inl err => (Some err, st1)
    | inr _ => resourceSiteRead meta st1
    end.
Proof.
  intros payload answer st1.
  assert (Hcreate :
    map payload_of (firstn 1 (calls_since st (snd (resourceSiteCreate meta st))))
      = [Some payload]).
  { destruct (creation_answer meta (d st) (world st)) as [r w] eqn:E.
    rewrite (creation_run W A meta st r w E). cbv zeta.
    unfold calls_since.
    assert (Hp : payload_of (creation_call (d st)) = Some payload).
    { unfold creation_call.
      destruct (account_slug (d st) =? "")%string; reflexivity. }
    destruct r as [err | site].
    - simpl snd. rewrite answered_exchanges_since. simpl. rewrite Hp. reflexivity.
    - rewrite read_after_exchanges_since. simpl. rewrite Hp. reflexivity. }
  assert (Hrun : resourceSiteUpdate meta st =
                 match fst answer with
                 | inl err => (Some err, st1)
                 | inr _ => resourceSiteRead meta st1
                 end).
  { subst st1. destruct answer as [r w] eqn:E.
    rewrite (update_run W A meta st r w E). cbv zeta.
    destruct r; reflexivity. }
  assert (Hcalls : calls_since st (snd (resourceSiteUpdate meta st)) =
                   UpdateSiteParams (id (d st)) payload ::
                     match fst answer with
      | inl _ => []
      | inr _ => [GetSiteParams (id (d st))]
      end).
  { rewrite Hrun. unfold calls_since. subst st1.
    destruct (fst answer) as [err | site].
    - simpl snd. rewrite answered_exchanges_since. reflexivity.
    - rewrite <- (with_d_same W (answered st _ _ _)).
      rewrite read_after_exchanges_since. reflexivity. }
  split; [exact Hcreate|].
  rewrite Hcalls.
  destruct (fst answer); repeat split; exact Hrun.
Qed.

(** ** Failures *)

Section Failures.

Variables W A : Type.
Variable meta : Meta W A.

Lemma read_propagated (st : State W) :
  propagated (fst (resourceSiteRead meta st)) [get_site_exchange meta st].
Proof.
  intros x err [Hx | []] Hf Hnf. subst x.
  split.
  - unfold get_site_exchange, get_site_not_found in *. simpl in *.
    destruct (GetSite (Netlify meta) (id (d st)) (AuthInfo meta) (world st))
      as [r w] eqn:E.
    rewrite (resourceSiteRead_run W A meta st r w E).
    unfold read_outcome. simpl in *.
    destruct r as [e | site]; simpl in *; [|discriminate Hf].
    inversion Hf; subst e.
    destruct err as [code | | | | |]; try reflexivity.
    rewrite Hnf. reflexivity.
  - exists []. split; [reflexivity | constructor].
Qed.

(** A read that follows a successful call. *)
Lemma read_after_propagated (st : State W) (d0 : ResourceData) (c : Call) (w : W) :
  let st1 := with_d d0 (answered st c None w) in
  propagated (fst (resourceSiteRead meta st1))
    [{| request := c; failure := None |}; get_site_exchange meta st1].
Proof.
  intros st1 x err [Hx | [Hx | []]] Hf Hnf; subst x.
  - discriminate Hf.
  - destruct (read_propagated st1 _ err (or_introl eq_refl) Hf Hnf) as [Hr _].
    split; [exact Hr|].
    exists [{| request := c; failure := None |}].
    split; [reflexivity|]. repeat constructor.
Qed.

Lemma single_propagated (x : Exchange) :
  propagated (failure x) [x].
Proof.
  intros y err [Hy | []] Hf _. subst y.
  split; [exact Hf|].
  exists []. split; [reflexivity | constructor].
Qed.

End Failures.

(** C7: in a run of create, read, update or delete, a remote call that
    fails, other than a get-site answered 404, is the last call of the
    run (nothing is retried, nothing is undone), every call before it
    succeeded, and its error is what the function returns; this
    includes the get-site of the read at the end of create and update,
    which comes after a mutation that succeeded. *)
Theorem failures_propagate {W A : Type} (meta : Meta W A) (v : Verb)
    (st : State W) (x : Exchange) (err : error) :
  In x (exchanges_since st (snd (resourceSite meta v st))) ->
  failure x = Some err ->
  get_site_not_found x = false ->
  fst (resourceSite meta v st) = Some err /\
  exists before : list Exchange,
    exchanges_since st (snd (resourceSite meta v st)) = before ++ [x] /\
    Forall (fun y => failure y = None) before.
Proof.
  revert x err. change (propagated (fst (resourceSite meta v st))
                          (exchanges_since st (snd (resourceSite meta v st)))).
  destruct v; simpl resourceSite.
  - (* Create *)
    destruct (creation_answer meta (d st) (world st)) as [r w] eqn:E.
    rewrite (creation_run W A meta st r w E). cbv zeta.
    destruct r as [e | site]; simpl failure_of.
    + simpl fst. simpl snd. rewrite answered_exchanges_since.
      apply (single_propagated {| request := creation_call (d st); failure := Some e |}).
    + rewrite read_after_exchanges_since. apply read_after_propagated.
  - (* Read *)
    rewrite read_exchanges_since. apply read_propagated.
  - (* Update *)
    destruct (UpdateSite (Netlify meta) (id (d st)) (resourceSite_setupStruct (d st))
                (AuthInfo meta) (world st)) as [r w] eqn:E.
    rewrite (update_run W A meta st r w E). cbv zeta.
    destruct r as [e | site]; simpl failure_of.
    + simpl fst. simpl snd. rewrite answered_exchanges_since.
      apply (single_propagated
               {| request := UpdateSiteParams (id (d st)) (resourceSite_setupStruct (d st));
                  failure := Some e |}).
    + rewrite <- (with_d_same W (answered st _ _ _)).
      rewrite read_after_exchanges_since. apply read_after_propagated.
  - (* Delete *)
    destruct (DeleteSite (Netlify meta) (id (d st)) (AuthInfo meta) (world st))
      as [e w] eqn:E.
    rewrite (delete_run W A meta st e w E).
    simpl fst. simpl snd. rewrite answered_exchanges_since.
    apply (single_propagated {| request := DeleteSiteParams (id (d st)); failure := e |}).
Qed.

Lemma failures_propagate_witness :
  let st := Scripted.start d_site1 [inr remote_site1; inl (GetSiteDefault 500)] in
  let x := {| request := GetSiteParams "site-1"; failure := Some (GetSiteDefault 500) |} in
  fst (resourceSite Scripted.meta Create st) = Some (GetSiteDefault 500) /\
  exists before : list Exchange,
    exchanges_since st (snd (resourceSite Scripted.meta Create st)) = before ++ [x] /\
    Forall (fun y => failure y = None) before.
Proof.
  apply (failures_propagate Scripted.meta Create
           (Scripted.start d_site1 [inr remote_site1; inl (GetSiteDefault 500)])
           {| request := GetSiteParams "site-1"; failure := Some (GetSiteDefault 500) |}
           (GetSiteDefault 500)).
  - right. left. reflexivity.
  - reflexivity.
  - reflexivity.
Defined.

(** ** Idempotence of read *)

(** C8: when get-site gives the same answer [r] to two reads in a row,
    the second read returns what the first returned and leaves the
    resource data as the first left it.  When the answer is a site, the
    attributes that read leaves are those of the answer: any other
    resource data with the same identifier ends up the same. *)
Theorem read_idempotent {W A : Type} (meta : Meta W A) (st : State W)
    (r : error + Site) :
  let run1 := resourceSiteRead meta st in
  let run2 := resourceSiteRead meta (snd run1) in
  fst (GetSite (Netlify meta) (id (d st)) (AuthInfo meta) (world st)) = r ->
  fst (GetSite (Netlify meta) (id (d (snd run1))) (AuthInfo meta)
         (world (snd run1))) = r ->
  d (snd run2) = d (snd run1) /\
  fst run2 = fst run1 /\
  forall (site : Site) (st0 : State W),
    r = inr site ->
    id (d st0) = id (d st) ->
    fst (GetSite (Netlify meta) (id (d st0)) (AuthInfo meta) (world st0)) = r ->
    d (snd (resourceSiteRead meta st0)) = d (snd run1).
Proof.
  intros run1 run2 H1 H2.
  destruct (GetSite (Netlify meta) (id (d st)) (AuthInfo meta) (world st))
    as [r1 w1] eqn:E1.
  simpl in H1. subst r1.
  assert (R1 : run1 = read_outcome st r w1)
    by (apply resourceSiteRead_run; exact E1).
  destruct (GetSite (Netlify meta) (id (d (snd run1))) (AuthInfo meta)
              (world (snd run1))) as [r2 w2] eqn:E2.
  simpl in H2. subst r2.
  assert (R2 : run2 = read_outcome (snd run1) r w2)
    by (apply resourceSiteRead_run; exact E2).
  rewrite R2. rewrite R1.
  split; [|split].
  - unfold read_outcome.
    destruct r as [err | site]; simpl.
    + destruct err as [code | | | | |]; try reflexivity.
      destruct (code =? 404); reflexivity.
    + reflexivity.
  - unfold read_outcome.
    destruct r as [err | site]; simpl.
    + destruct err as [code | | | | |]; try reflexivity.
      destruct (code =? 404); reflexivity.
    + reflexivity.
  - intros site st0 Hr Hid H0. subst r.
    destruct (GetSite (Netlify meta) (id (d st0)) (AuthInfo meta) (world st0))
      as [r0 w0] eqn:E0.
    simpl in H0. subst r0.
    rewrite (resourceSiteRead_run W A meta st0 _ w0 E0).
    unfold read_outcome, refreshed. simpl. rewrite Hid. reflexivity.
Qed.

Lemma read_idempotent_witness :
  let st := Scripted.start d_site1 [inr remote_site1; inr remote_site1] in
  let run1 := resourceSiteRead Scripted.meta st in
  let run2 := resourceSiteRead Scripted.meta (snd run1) in
  d (snd run1) = {| id := ""; name := "site1"; custom_domain := "";
                    deploy_url := "https://site1.netlify.app";
                    account_slug := "me"; account_name := "Me";
                    repo := [gitlab_block 42] |} /\
  d (snd run2) = d (snd run1) /\
  fst run2 = fst run1.
Proof.
  split; [reflexivity|].
  destruct (read_idempotent Scripted.meta
              (Scripted.start d_site1 [inr remote_site1; inr remote_site1])
              (inr remote_site1) eq_refl eq_refl) as [Hd [Hr _]].
  split; [exact Hd | exact Hr].
Defined.

(** * Further properties of the reconciler *)

(** ** What the payload is built from *)

(** X1: the payload depends on the name, the custom domain and the first
    repo block only: it is the payload of the attribute set stripped of
    everything else.  The identifier, deploy_url, account_slug and
    account_name are never part of it, nor is a build-settings object. *)
Theorem setupStruct_reads_only (d0 : ResourceData) :
  let p := resourceSite_setupStruct d0 in
  p = resourceSite_setupStruct
        {| id := ""; name := name d0; custom_domain := custom_domain d0;
           deploy_url := ""; account_slug := ""; account_name := "";
           repo := firstn 1 (repo d0) |} /\
  ID (Site_ p) = "" /\ DeployURL (Site_ p) = "" /\
  AccountSlug (Site_ p) = "" /\ AccountName (Site_ p) = "" /\
  BuildSettings (Site_ p) = None.
Proof.
  unfold resourceSite_setupStruct, GetOk_list.
  destruct (repo d0) as [|b rest]; simpl; repeat split.
Qed.

Section MoreRuns.

Variables W A : Type.
Variable meta : Meta W A.

(** The resource data that a read leaves, by the answer to get-site. *)
Lemma read_outcome_d (st : State W) (r : error + Site) (w : W) :
  d (snd (read_outcome st r w)) =
    match r with
    | inl (GetSiteDefault code) =>
        if code =? 404 then SetId "" (d st) else d st
    | inl _ => d st
    | inr site => refreshed site (d st)
    end.
Proof.
  unfold read_outcome.
  destruct r as [err | site]; [|reflexivity].
  destruct err as [code | | | | |]; try reflexivity.
  destruct (code =? 404); reflexivity.
Qed.

Lemma read_outcome_result (st : State W) (r : error + Site) (w : W) :
  fst (read_outcome st r w) =
    match r with
    | inl (GetSiteDefault code) =>
        if code =? 404 then None else Some (GetSiteDefault code)
    | inl err => Some err
    | inr _ => None
    end.
Proof.
  unfold read_outcome.
  destruct r as [err | site]; [|reflexivity].
  destruct err as [code | | | | |]; try reflexivity.
  destruct (code =? 404); reflexivity.
Qed.

(** A read that returns an error has not touched the resource data. *)
Lemma read_error_keeps_d (st : State W) (err : error) :
  fst (resourceSiteRead meta st) = Some err ->
  d (snd (resourceSiteRead meta st)) = d st.
Proof.
  destruct (GetSite (Netlify meta) (id (d st)) (AuthInfo meta) (world st))
    as [r w] eqn:E.
  rewrite (resourceSiteRead_run W A meta st r w E).
  rewrite read_outcome_d, read_outcome_result.
  destruct r as [e | site]; [|discriminate].
  destruct e as [code | | | | |]; try reflexivity.
  destruct (code =? 404); [discriminate | reflexivity].
Qed.

(** A read keeps the identifier or empties it. *)
Lemma read_keeps_or_clears_id (st : State W) :
  id (d (snd (resourceSiteRead meta st))) = id (d st) \/
  id (d (snd (resourceSiteRead meta st))) = "".
Proof.
  destruct (GetSite (Netlify meta) (id (d st)) (AuthInfo meta) (world st))
    as [r w] eqn:E.
  rewrite (resourceSiteRead_run W A meta st r w E).
  rewrite read_outcome_d.
  destruct r as [e | site]; [|left; reflexivity].
  destruct e as [code | | | | |]; try (left; reflexivity).
  destruct (code =? 404); [right | left]; reflexivity.
Qed.

(** The calls of update, by the answer to update-site. *)
Lemma update_exchanges_since (st : State W) (r : error + Site) (w : W) :
  UpdateSite (Netlify meta) (id (d st)) (resourceSite_setupStruct (d st))
    (AuthInfo meta) (world st) = (r, w) ->
  let x := {| request := UpdateSiteParams (id (d st))
                           (resourceSite_setupStruct (d st));
              failure := failure_of r |} in
  exchanges_since st (snd (resourceSiteUpdate meta st)) =
    match r with
    | inl _ => [x]
    | inr _ =>
        [x; get_site_exchange meta
              (answered st (request x) None w)]
    end.
Proof.
  intros E x. subst x.
  rewrite (update_run W A meta st r w E). cbv zeta.
  destruct r as [e | site]; simpl failure_of.
  - simpl snd. apply answered_exchanges_since.
  - rewrite <- (with_d_same W (answered st _ _ _)).
    rewrite read_after_exchanges_since.
    rewrite with_d_same. reflexivity.
Qed.

(** The calls of create, by the answer to the creation call. *)
Lemma create_exchanges_since (st : State W) (r : error + Site) (w : W) :
  creation_answer meta (d st) (world st) = (r, w) ->
  let x := {| request := creation_call (d st); failure := failure_of r |} in
  exchanges_since st (snd (resourceSiteCreate meta st)) =
    match r with
    | inl _ => [x]
    | inr site =>
        [x; get_site_exchange meta
              (with_d (SetId (ID site) (d st))
                 (answered st (request x) None w))]
    end.
Proof.
  intros E x. subst x.
  rewrite (creation_run W A meta st r w E). cbv zeta.
  destruct r as [e | site]; simpl failure_of.
  - simpl snd. apply answered_exchanges_since.
  - apply read_after_exchanges_since.
Qed.

Lemma delete_exchanges_since (st : State W) :
  exists e : option error,
    exchanges_since st (snd (resourceSiteDelete meta st)) =
      [{| request := DeleteSiteParams (id (d st)); failure := e |}].
Proof.
  destruct (DeleteSite (Netlify meta) (id (d st)) (AuthInfo meta) (world st))
    as [e w] eqn:E.
  rewrite (delete_run W A meta st e w E). simpl snd.
  exists e. apply answered_exchanges_since.
Qed.

End MoreRuns.

(** ** Round trips between the payload and read *)

(** X2: after a successful read, the payload built from the resource data
    gives back what the remote site reported: its name, its custom
    domain, and its build settings, field for field, when they name a
    repository (no repo object otherwise). *)
Theorem read_then_setupStruct {W A : Type} (meta : Meta W A) (st : State W)
    (site : Site) (w : W) :
  GetSite (Netlify meta) (id (d st)) (AuthInfo meta) (world st) = (inr site, w) ->
  let p := resourceSite_setupStruct (d (snd (resourceSiteRead meta st))) in
  Name (Site_ p) = Name site /\
  CustomDomain (Site_ p) = CustomDomain site /\
  Repo p = match BuildSettings site with
           | Some bs => if (RepoPath bs =? "")%string then None else Some bs
           | None => None
           end.
Proof.
  intros E p. subst p.
  rewrite (resourceSiteRead_run W A meta st _ _ E).
  rewrite read_outcome_d.
  unfold resourceSite_setupStruct, refreshed, GetOk_list. simpl.
  destruct (BuildSettings site) as [bs|]; [|repeat split].
  destruct (RepoPath bs =? "")%string; [repeat split|].
  destruct bs; repeat split.
Qed.

Lemma read_then_setupStruct_witness :
  let st := Scripted.start d_team [inr remote_site1] in
  Repo (resourceSite_setupStruct d_team) = None /\
  Repo (resourceSite_setupStruct (d (snd (resourceSiteRead Scripted.meta st))))
    = Some gitlab_settings.
Proof.
  split; [reflexivity|].
  apply (read_then_setupStruct Scripted.meta
           (Scripted.start d_team [inr remote_site1]) remote_site1 []).
  reflexivity.
Defined.

(** X3: when the remote site's build settings are the repo object of the
    payload built from attribute set [d0], a successful read stores the
    first repo block of [d0] again, unchanged, provided its repo_path is
    not empty; a block with an empty repo_path is read back as no repo
    at all. *)
Theorem echoed_repo_read_back {W A : Type} (meta : Meta W A) (st : State W)
    (site : Site) (w : W) (d0 : ResourceData) (b : RepoBlock) :
  GetSite (Netlify meta) (id (d st)) (AuthInfo meta) (world st) = (inr site, w) ->
  hd_error (repo d0) = Some b ->
  BuildSettings site = Repo (resourceSite_setupStruct d0) ->
  repo (d (snd (resourceSiteRead meta st))) =
    if (repo_path b =? "")%string then [] else [b].
Proof.
  intros E Hb Hecho.
  rewrite (resourceSiteRead_run W A meta st _ _ E).
  rewrite read_outcome_d. unfold refreshed. simpl repo.
  rewrite Hecho.
  unfold resourceSite_setupStruct, GetOk_list.
  destruct (repo d0) as [|b' rest]; [discriminate Hb|].
  simpl in Hb. inversion Hb; subst b'. simpl.
  destruct (repo_path b =? "")%string; [reflexivity|].
  unfold repo_of_BuildSettings. simpl. destruct b; reflexivity.
Qed.

Lemma echoed_repo_read_back_witness :
  let st := Scripted.start d_team [inr remote_echo] in
  repo (d st) = [] /\
  repo (d (snd (resourceSiteRead Scripted.meta st))) = [gitlab_block 0].
Proof.
  split; [reflexivity|].
  apply (echoed_repo_read_back Scripted.meta
           (Scripted.start d_team [inr remote_echo])
           remote_echo [] d_site1 (gitlab_block 0)); reflexivity.
Defined.

(** ** create, beyond its first call *)

(** X4: when the creation call and the get-site that follows both
    succeed, create returns no error, the identifier is the ID of the
    site the creation call returned, get-site was asked for that ID, and
    the five string attributes are those of the site get-site returned. *)
Theorem create_stores_created_id {W A : Type} (meta : Meta W A) (st : State W)
    (created fetched : Site) (w1 w2 : W) :
  creation_answer meta (d st) (world st) = (inr created, w1) ->
  GetSite (Netlify meta) (ID created) (AuthInfo meta) w1 = (inr fetched, w2) ->
  let run := resourceSiteCreate meta st in
  fst run = None /\
  id (d (snd run)) = ID created /\
  calls_since st (snd run) = [creation_call (d st); GetSiteParams (ID created)] /\
  name (d (snd run)) = Name fetched /\
  custom_domain (d (snd run)) = CustomDomain fetched /\
  deploy_url (d (snd run)) = DeployURL fetched /\
  account_slug (d (snd run)) = AccountSlug fetched /\
  account_name (d (snd run)) = AccountName fetched.
Proof.
  intros E G run. subst run.
  unfold calls_since.
  rewrite (create_exchanges_since W A meta st _ w1 E).
  rewrite (creation_run W A meta st _ w1 E). cbv zeta. simpl failure_of.
  rewrite (resourceSiteRead_run W A meta
             (with_d (SetId (ID created) (d st))
                (answered st (creation_call (d st)) None w1))
             (inr fetched) w2 G).
  repeat split.
Qed.

Lemma create_stores_created_id_witness :
  let st := Scripted.start d_team [inr remote_site1; inr remote_unlinked] in
  let run := resourceSiteCreate Scripted.meta st in
  fst run = None /\
  id (d (snd run)) = "site-1" /\
  calls_since st (snd run) =
    [CreateSiteInTeamParams "team-x" (resourceSite_setupStruct d_team);
     GetSiteParams "site-1"] /\
  name (d (snd run)) = "plain" /\
  custom_domain (d (snd run)) = "" /\
  deploy_url (d (snd run)) = "https://plain.netlify.app" /\
  account_slug (d (snd run)) = "team-x" /\
  account_name (d (snd run)) = "Team X".
Proof.
  apply (create_stores_created_id Scripted.meta
           (Scripted.start d_team [inr remote_site1; inr remote_unlinked])
           remote_site1 remote_unlinked [inr remote_unlinked] []); reflexivity.
Defined.

(** X5: when the creation call succeeds and the get-site that follows
    fails with anything but a 404, create returns that error, and the
    resource data is the old one with the new site's ID as identifier:
    the created site stays tracked. *)
Theorem create_read_failure_keeps_id {W A : Type} (meta : Meta W A)
    (st : State W) (created : Site) (err : error) (w1 w2 : W) :
  creation_answer meta (d st) (world st) = (inr created, w1) ->
  GetSite (Netlify meta) (ID created) (AuthInfo meta) w1 = (inl err, w2) ->
  err <> GetSiteDefault 404 ->
  fst (resourceSiteCreate meta st) = Some err /\
  d (snd (resourceSiteCreate meta st)) = SetId (ID created) (d st).
Proof.
  intros E G Hne.
  rewrite (creation_run W A meta st _ w1 E). cbv zeta. simpl failure_of.
  rewrite (resourceSiteRead_run W A meta
             (with_d (SetId (ID created) (d st))
                (answered st (creation_call (d st)) None w1))
             (inl err) w2 G).
  rewrite read_outcome_d, read_outcome_result.
  destruct err as [code | | | | |]; try (split; reflexivity).
  destruct (Z.eqb_spec code 404) as [Heq | _].
  - subst code. contradiction Hne. reflexivity.
  - split; reflexivity.
Qed.

Lemma create_read_failure_keeps_id_witness :
  let st := Scripted.start d_site1 [inr remote_site1; inl (OtherError "timeout")] in
  fst (resourceSiteCreate Scripted.meta st) = Some (OtherError "timeout") /\
  d (snd (resourceSiteCreate Scripted.meta st)) = SetId "site-1" d_site1.
Proof.
  apply (create_read_failure_keeps_id Scripted.meta
           (Scripted.start d_site1 [inr remote_site1; inl (OtherError "timeout")])
           remote_site1 (OtherError "timeout") [inl (OtherError "timeout")] []).
  - reflexivity.
  - reflexivity.
  - discriminate.
Defined.

(** ** update and read on failure *)

(** X6: when update-site fails, update returns that error, the resource
    data is untouched, and update-site is the only call made: no read
    follows. *)
Theorem update_failure_atomic {W A : Type} (meta : Meta W A) (st : State W)
    (err : error) (w : W) :
  UpdateSite (Netlify meta) (id (d st)) (resourceSite_setupStruct (d st))
    (AuthInfo meta) (world st) = (inl err, w) ->
  fst (resourceSiteUpdate meta st) = Some err /\
  d (snd (resourceSiteUpdate meta st)) = d st /\
  exchanges_since st (snd (resourceSiteUpdate meta st)) =
    [{| request := UpdateSiteParams (id (d st)) (resourceSite_setupStruct (d st));
        failure := Some err |}].
Proof.
  intros E.
  rewrite (update_exchanges_since W A meta st _ w E).
  rewrite (update_run W A meta st _ w E).
  repeat split.
Qed.

Lemma update_failure_atomic_witness :
  let st := Scripted.start d_site1_tracked [inl (UpdateSiteDefault 422)] in
  fst (resourceSiteUpdate Scripted.meta st) = Some (UpdateSiteDefault 422) /\
  d (snd (resourceSiteUpdate Scripted.meta st)) = d_site1_tracked /\
  exchanges_since st (snd (resourceSiteUpdate Scripted.meta st)) =
    [{| request := UpdateSiteParams "site-1"
                     (resourceSite_setupStruct d_site1_tracked);
        failure := Some (UpdateSiteDefault 422) |}].
Proof.
  apply (update_failure_atomic Scripted.meta
           (Scripted.start d_site1_tracked [inl (UpdateSiteDefault 422)])
           (UpdateSiteDefault 422) []).
  reflexivity.
Defined.

(** X7: on a get-site 404, read changes the identifier and nothing else:
    every attribute keeps the value it had. *)
Theorem read_not_found_clears_only_id {W A : Type} (meta : Meta W A)
    (st : State W) (w : W) :
  GetSite (Netlify meta) (id (d st)) (AuthInfo meta) (world st)
    = (inl (GetSiteDefault 404), w) ->
  d (snd (resourceSiteRead meta st)) = SetId "" (d st).
Proof.
  intros E. rewrite (resourceSiteRead_run W A meta st _ _ E).
  reflexivity.
Qed.

Lemma read_not_found_clears_only_id_witness :
  let st := Scripted.start d_site1_tracked [inl (GetSiteDefault 404)] in
  d (snd (resourceSiteRead Scripted.meta st)) =
    {| id := ""; name := "site1"; custom_domain := "";
       deploy_url := "https://site1.netlify.app"; account_slug := "me";
       account_name := "Me"; repo := [gitlab_block 42] |}.
Proof.
  apply (read_not_found_clears_only_id Scripted.meta
           (Scripted.start d_site1_tracked [inl (GetSiteDefault 404)]) []).
  reflexivity.
Defined.

(** X8: when update-site succeeds and the get-site of the read that
    follows answers 404, update returns no error, the identifier is
    emptied, and the attributes are those update started with. *)
Theorem update_then_not_found {W A : Type} (meta : Meta W A) (st : State W)
    (updated : Site) (w1 w2 : W) :
  UpdateSite (Netlify meta) (id (d st)) (resourceSite_setupStruct (d st))
    (AuthInfo meta) (world st) = (inr updated, w1) ->
  GetSite (Netlify meta) (id (d st)) (AuthInfo meta) w1
    = (inl (GetSiteDefault 404), w2) ->
  fst (resourceSiteUpdate meta st) = None /\
  d (snd (resourceSiteUpdate meta st)) = SetId "" (d st).
Proof.
  intros E G.
  rewrite (update_run W A meta st _ w1 E). cbv zeta. simpl failure_of.
  rewrite (resourceSiteRead_run W A meta
             (answered st
                (UpdateSiteParams (id (d st)) (resourceSite_setupStruct (d st)))
                None w1)
             (inl (GetSiteDefault 404)) w2 G).
  split; reflexivity.
Qed.

Lemma update_then_not_found_witness :
  let st := Scripted.start d_site1_tracked
              [inr remote_site1; inl (GetSiteDefault 404)] in
  fst (resourceSiteUpdate Scripted.meta st) = None /\
  d (snd (resourceSiteUpdate Scripted.meta st)) = SetId "" d_site1_tracked.
Proof.
  apply (update_then_not_found Scripted.meta
           (Scripted.start d_site1_tracked
              [inr remote_site1; inl (GetSiteDefault 404)])
           remote_site1 [inl (GetSiteDefault 404)] []); reflexivity.
Defined.

(** ** What read, update and delete keep *)

(** X9: a read, an update or a delete that returns an error leaves the
    resource data exactly as it found it. *)
Theorem error_leaves_data {W A : Type} (meta : Meta W A) (v : Verb)
    (st : State W) (err : error) :
  v <> Create ->
  fst (resourceSite meta v st) = Some err ->
  d (snd (resourceSite meta v st)) = d st.
Proof.
  intros Hv. destruct v; simpl resourceSite.
  - contradiction Hv. reflexivity.
  - apply read_error_keeps_d.
  - destruct (UpdateSite (Netlify meta) (id (d st))
                (resourceSite_setupStruct (d st)) (AuthInfo meta) (world st))
      as [r w] eqn:E.
    rewrite (update_run W A meta st r w E). cbv zeta.
    destruct r as [e | site].
    + intros _. reflexivity.
    + intros H. apply (read_error_keeps_d W A meta _ err H).
  - destruct (DeleteSite (Netlify meta) (id (d st)) (AuthInfo meta) (world st))
      as [e w] eqn:E.
    rewrite (delete_run W A meta st e w E). intros _. reflexivity.
Qed.

Lemma error_leaves_data_witness :
  let st := Scripted.start d_site1_tracked
              [inr remote_unlinked; inl (GetSiteDefault 503)] in
  fst (resourceSite Scripted.meta Update st) = Some (GetSiteDefault 503) /\
  d (snd (resourceSite Scripted.meta Update st)) = d_site1_tracked.
Proof.
  split; [reflexivity|].
  apply (error_leaves_data Scripted.meta Update
           (Scripted.start d_site1_tracked
              [inr remote_unlinked; inl (GetSiteDefault 503)])
           (GetSiteDefault 503)).
  - discriminate.
  - reflexivity.
Defined.

(** X10: read, update and delete never give the resource another
    identifier: after the run it is the one from before, or empty; and
    delete leaves the whole resource data as it was. *)
Theorem verbs_keep_identifier {W A : Type} (meta : Meta W A) (v : Verb)
    (st : State W) :
  v <> Create ->
  (id (d (snd (resourceSite meta v st))) = id (d st) \/
   id (d (snd (resourceSite meta v st))) = "") /\
  (v = Delete -> d (snd (resourceSite meta v st)) = d st).
Proof.
  intros Hv. destruct v; simpl resourceSite.
  - contradiction Hv. reflexivity.
  - split; [apply read_keeps_or_clears_id | discriminate].
  - split; [|discriminate].
    destruct (UpdateSite (Netlify meta) (id (d st))
                (resourceSite_setupStruct (d st)) (AuthInfo meta) (world st))
      as [r w] eqn:E.
    rewrite (update_run W A meta st r w E). cbv zeta.
    destruct r as [e | site].
    + left. reflexivity.
    + apply (read_keeps_or_clears_id W A meta
               (answered st
                  (UpdateSiteParams (id (d st)) (resourceSite_setupStruct (d st)))
                  (failure_of (inr site)) w)).
  - destruct (DeleteSite (Netlify meta) (id (d st)) (AuthInfo meta) (world st))
      as [e w] eqn:E.
    rewrite (delete_run W A meta st e w E).
    split; [left; reflexivity | intros _; reflexivity].
Qed.

Lemma verbs_keep_identifier_witness :
  let st := Scripted.start d_site1_tracked [inr remote_unlinked] in
  id (d (snd (resourceSite Scripted.meta Read st))) = "site-1" \/
  id (d (snd (resourceSite Scripted.meta Read st))) = "".
Proof.
  apply (verbs_keep_identifier Scripted.meta Read
           (Scripted.start d_site1_tracked [inr remote_unlinked])).
  discriminate.
Defined.

(** ** The calls of a run *)

(** X11: every verb makes one remote call, and create and update make a
    second one exactly when the first succeeded; a second call is always
    a get-site.  No run makes more than two calls. *)
Theorem verb_call_shape {W A : Type} (meta : Meta W A) (v : Verb) (st : State W) :
  exists (x : Exchange) (rest : list Exchange),
    exchanges_since st (snd (resourceSite meta v st)) = x :: rest /\
    Forall (fun y => is_get_site (request y) = true) rest /\
    length rest =
      match v, failure x with
      | Create, None | Update, None => 1%nat
      | _, _ => 0%nat
      end.
Proof.
  destruct v; simpl resourceSite.
  - destruct (creation_answer meta (d st) (world st)) as [r w] eqn:E.
    rewrite (create_exchanges_since W A meta st r w E). cbv zeta.
    destruct r as [e | site]; eexists; eexists;
      (split; [reflexivity|]); split;
      try reflexivity; repeat constructor.
  - rewrite read_exchanges_since.
    eexists; eexists; (split; [reflexivity|]); split.
    + constructor.
    + reflexivity.
  - destruct (UpdateSite (Netlify meta) (id (d st))
                (resourceSite_setupStruct (d st)) (AuthInfo meta) (world st))
      as [r w] eqn:E.
    rewrite (update_exchanges_since W A meta st r w E). cbv zeta.
    destruct r as [e | site]; eexists; eexists;
      (split; [reflexivity|]); split;
      try reflexivity; repeat constructor.
  - destruct (delete_exchanges_since W A meta st) as [e He].
    rewrite He.
    eexists; eexists; (split; [reflexivity|]); split.
    + constructor.
    + reflexivity.
Qed.

(** X12: every call that read, update and delete make is addressed to
    the identifier the resource had when the run started. *)
Theorem calls_address_tracked_site {W A : Type} (meta : Meta W A) (v : Verb)
    (st : State W) :
  v <> Create ->
  Forall (fun c => site_id_of c = Some (id (d st)))
    (calls_since st (snd (resourceSite meta v st))).
Proof.
  intros Hv. unfold calls_since. destruct v; simpl resourceSite.
  - contradiction Hv. reflexivity.
  - rewrite read_exchanges_since. repeat constructor.
  - destruct (UpdateSite (Netlify meta) (id (d st))
                (resourceSite_setupStruct (d st)) (AuthInfo meta) (world st))
      as [r w] eqn:E.
    rewrite (update_exchanges_since W A meta st r w E). cbv zeta.
    destruct r as [e | site]; repeat constructor.
  - destruct (delete_exchanges_since W A meta st) as [e He].
    rewrite He. repeat constructor.
Qed.

Lemma calls_address_tracked_site_witness :
  let st := Scripted.start d_site1_tracked [inr remote_site1; inr remote_site1] in
  calls_since st (snd (resourceSite Scripted.meta Update st)) =
    [UpdateSiteParams "site-1" (resourceSite_setupStruct d_site1_tracked);
     GetSiteParams "site-1"] /\
  Forall (fun c => site_id_of c = Some "site-1")
    (calls_since st (snd (resourceSite Scripted.meta Update st))).
Proof.
  split; [reflexivity|].
  apply (calls_address_tracked_site Scripted.meta Update
           (Scripted.start d_site1_tracked [inr remote_site1; inr remote_site1])).
  discriminate.
Defined.

(** ** The type assertions on the repo block *)

Lemma assert_string_Some (x : option value) (s : string) :
  assert_string x = Some s <-> x = Some (VString s).
Proof.
  split.
  - destruct x as [[s' | n | n] |]; simpl; intros H;
      try discriminate H; inversion H; reflexivity.
  - intros H. subst x. reflexivity.
Qed.

Lemma assert_int_Some (x : option value) (n : Z) :
  assert_int x = Some n <-> x = Some (VInt n).
Proof.
  split.
  - destruct x as [[s | n' | n'] |]; simpl; intros H;
      try discriminate H; inversion H; reflexivity.
  - intros H. subst x. reflexivity.
Qed.

(** A key has an entry exactly when it is one of the keys of the map. *)
Lemma map_index_In (m : gomap) (k : string) :
  map_index m k <> None <-> In k (map fst m).
Proof.
  induction m as [|[k' v] m IH]; simpl.
  - split; [intros H; apply H; reflexivity | intros []].
  - destruct (String.eqb_spec k' k) as [Heq | Hne].
    + split; [intros _; left; exact Heq | intros _; discriminate].
    + rewrite IH. split; [intros H; right; exact H|].
      intros [H | H]; [contradiction | exact H].
Qed.

(** X13: the type assertions of lines 209-215 go through exactly on the
    maps that give every field of the repo sub-schema a value of its
    schema type; a missing key or a value of another type makes them
    fail.  When they go through, each field of the repo object is the
    entry under its own key. *)
Theorem assertions_iff_shaped (m : gomap) :
  (RepoInfo_of_map m <> None <-> shaped has_type repo_Elem_Schema m = true) /\
  (forall r : RepoInfo,
     RepoInfo_of_map m = Some r ->
     map_index m "command" = Some (VString (Cmd r)) /\
     map_index m "deploy_key_id" = Some (VString (DeployKeyID r)) /\
     map_index m "dir" = Some (VString (Dir r)) /\
     map_index m "provider" = Some (VString (Provider r)) /\
     map_index m "repo_path" = Some (VString (RepoPath r)) /\
     map_index m "repo_branch" = Some (VString (RepoBranch r)) /\
     map_index m "installation_id" = Some (VInt (InstallationID r))).
Proof.
  unfold RepoInfo_of_map, shaped, repo_Elem_Schema. simpl.
  destruct (map_index m "command") as [[s1 | n1 | n1] |];
    simpl; try (split; [split; [congruence | discriminate] | discriminate]).
  destruct (map_index m "deploy_key_id") as [[s2 | n2 | n2] |];
    simpl; try (split; [split; [congruence | discriminate] | discriminate]).
  destruct (map_index m "dir") as [[s3 | n3 | n3] |];
    simpl; try (split; [split; [congruence | discriminate] | discriminate]).
  destruct (map_index m "provider") as [[s4 | n4 | n4] |];
    simpl; try (split; [split; [congruence | discriminate] | discriminate]).
  destruct (map_index m "repo_path") as [[s5 | n5 | n5] |];
    simpl; try (split; [split; [congruence | discriminate] | discriminate]).
  destruct (map_index m "repo_branch") as [[s6 | n6 | n6] |];
    simpl; try (split; [split; [congruence | discriminate] | discriminate]).
  destruct (map_index m "installation_id") as [[s7 | n7 | n7] |];
    simpl; try (split; [split; [congruence | discriminate] | discriminate]).
  split.
  - split; [reflexivity | discriminate].
  - intros r H. inversion H; subst r. simpl. repeat split.
Qed.

(** X14: on the map of a repo block, with every schema field under its
    key, the assertions succeed and give the repo object that
    [resourceSite_setupStruct] puts in the payload for that block. *)
Theorem assertions_agree_with_payload (d0 : ResourceData) (b : RepoBlock) :
  hd_error (repo d0) = Some b ->
  shaped has_type repo_Elem_Schema (map_of_block b) = true /\
  RepoInfo_of_map (map_of_block b) = Repo (resourceSite_setupStruct d0).
Proof.
  intros Hb. split; [reflexivity|].
  unfold resourceSite_setupStruct, GetOk_list.
  destruct (repo d0) as [|b' rest]; [discriminate Hb|].
  simpl in Hb. inversion Hb; subst b'. reflexivity.
Qed.

Lemma assertions_agree_with_payload_witness :
  RepoInfo_of_map (map_of_block (gitlab_block 42)) = Some gitlab_settings.
Proof.
  apply (assertions_agree_with_payload d_site1_tracked (gitlab_block 42)).
  reflexivity.
Defined.

(** X15: the map that read stores under "repo" has an entry for every
    field of the repo sub-schema and for nothing else, a string for each
    [TypeString] field and an integer for the [TypeInt] field; as the
    integer is an int64, the map is not one the assertions of lines
    209-215 accept as it is. *)
Theorem read_literal_matches_schema (bs : RepoInfo) :
  map fst (BuildSettings_map bs) = map fst repo_Elem_Schema /\
  shaped fits_type repo_Elem_Schema (BuildSettings_map bs) = true /\
  (forall k : string,
     map_index (BuildSettings_map bs) k <> None <->
     In k (map fst repo_Elem_Schema)) /\
  RepoInfo_of_map (BuildSettings_map bs) = None.
Proof.
  split; [reflexivity|]. split; [reflexivity|]. split; [|reflexivity].
  intros k. rewrite map_index_In. reflexivity.
Qed.
